(** * torch.onnx._globals and the FSDP device-placement tests

    A shallow embedding of [torch/onnx/_globals.py] (the class
    [_InternalGlobals] with its validated opset-version property) and of
    the device-placement contract that
    [test/distributed/fsdp/test_fsdp_misc.py] checks on the
    [FullyShardedDataParallel] constructor. *)

From Stdlib Require Import ZArith List String Bool Lia DecimalString PeanoNat.
From Stdlib Require Import DecimalPos DecimalZ.
Import ListNotations.

(** ** Python values

    Attributes of a Python object are untyped: the annotations [int],
    [Optional[OperatorExportTypes]], [Optional[TrainingMode]] and [bool] of
    [_InternalGlobals] are not enforced at run time.  The values that the
    development lets a caller assign are [None], booleans, integers,
    strings and enumeration members. *)
Module Py.

Local Open Scope Z_scope.

Inductive object : Type :=
| PyNone
| PyBool (b : bool)
| PyInt (n : Z)
| PyStr (s : string)
| PyEnum (cls : string) (member : string).

(** Python's [==].  [bool] is a subclass of [int], so [True == 1]; values
    of unrelated types are unequal. *)
Definition equal (x y : object) : bool :=
  match x, y with
  | PyNone, PyNone => true
  | PyBool a, PyBool b => Bool.eqb a b
  | PyBool a, PyInt n => Z.b2z a =? n
  | PyInt n, PyBool b => n =? Z.b2z b
  | PyInt n, PyInt m => n =? m
  | PyStr s, PyStr t => String.eqb s t
  | PyEnum c m, PyEnum c' m' => String.eqb c c' && String.eqb m m'
  | _, _ => false
  end.

(** [x in l] on a list: some element compares equal to [x]. *)
Fixpoint contains (l : list object) (x : object) : bool :=
  match l with
  | [] => false
  | e :: l' => equal x e || contains l' x
  end.

(** [str(x)], as an f-string interpolates it. *)
Definition str (x : object) : string :=
  match x with
  | PyNone => "None"
  | PyBool true => "True"
  | PyBool false => "False"
  | PyInt n => NilZero.string_of_int (Z.to_int n)
  | PyStr s => s
  | PyEnum c m => c ++ "." ++ m
  end%string.

Inductive exception : Type :=
| ValueError (msg : string).

(** How a statement ends: normally, or by raising. *)
Inductive outcome : Type :=
| Done
| Raise (e : exception).

End Py.

(** ** torch/onnx/_globals.py *)
Module Globals.

Import Py.
Local Open Scope Z_scope.

(** The instance attributes that [__init__] creates. *)
Record _InternalGlobals : Type := {
  _export_onnx_opset_version : object;
  operator_export_type : object;
  training_mode : object;
  onnx_shape_inference : object
}.

(** The names a caller can assign on an instance: the property and the
    four instance attributes. *)
Inductive attribute : Type :=
| attr_export_onnx_opset_version
| attr__export_onnx_opset_version
| attr_operator_export_type
| attr_training_mode
| attr_onnx_shape_inference.

Section Constants.

(** [torch.onnx._constants] is imported, not defined, by the module: its
    three integers are parameters here. *)
Variable onnx_main_opset : Z.
Variable onnx_stable_opsets : list Z.
Variable onnx_default_opset : Z.

Definition __init__ : _InternalGlobals :=
  {| _export_onnx_opset_version := PyInt onnx_default_opset;
     operator_export_type := PyNone;
     training_mode := PyNone;
     onnx_shape_inference := PyBool false |}.

(** The property getter. *)
Definition export_onnx_opset_version (self : _InternalGlobals) : object :=
  _export_onnx_opset_version self.

(** The list the setter builds on every call. *)
Definition supported_versions : list object :=
  [PyInt onnx_main_opset] ++ map PyInt onnx_stable_opsets.

(** The property setter: the outcome of the assignment and the object
    after it. *)
Definition set_export_onnx_opset_version
    (self : _InternalGlobals) (value : object)
  : outcome * _InternalGlobals :=
  if negb (contains supported_versions value) then
    (Raise (ValueError ("Unsupported ONNX opset version: " ++ str value)%string),
     self)
  else
    (Done,
     {| _export_onnx_opset_version := value;
        operator_export_type := operator_export_type self;
        training_mode := training_mode self;
        onnx_shape_inference := onnx_shape_inference self |}).

(** [self.name = value]: the property is a data descriptor of the class and
    takes the assignment to its setter; the other names are stored in the
    instance. *)
Definition setattr
    (self : _InternalGlobals) (name : attribute) (value : object)
  : outcome * _InternalGlobals :=
  match name with
  | attr_export_onnx_opset_version =>
      set_export_onnx_opset_version self value
  | attr__export_onnx_opset_version =>
      (Done,
       {| _export_onnx_opset_version := value;
          operator_export_type := operator_export_type self;
          training_mode := training_mode self;
          onnx_shape_inference := onnx_shape_inference self |})
  | attr_operator_export_type =>
      (Done,
       {| _export_onnx_opset_version := _export_onnx_opset_version self;
          operator_export_type := value;
          training_mode := training_mode self;
          onnx_shape_inference := onnx_shape_inference self |})
  | attr_training_mode =>
      (Done,
       {| _export_onnx_opset_version := _export_onnx_opset_version self;
          operator_export_type := operator_export_type self;
          training_mode := value;
          onnx_shape_inference := onnx_shape_inference self |})
  | attr_onnx_shape_inference =>
      (Done,
       {| _export_onnx_opset_version := _export_onnx_opset_version self;
          operator_export_type := operator_export_type self;
          training_mode := training_mode self;
          onnx_shape_inference := value |})
  end.

(** [self.name]. *)
Definition getattr (self : _InternalGlobals) (name : attribute) : object :=
  match name with
  | attr_export_onnx_opset_version => export_onnx_opset_version self
  | attr__export_onnx_opset_version => _export_onnx_opset_version self
  | attr_operator_export_type => operator_export_type self
  | attr_training_mode => training_mode self
  | attr_onnx_shape_inference => onnx_shape_inference self
  end.

(** A caller's script: assignments run one after the other, each inside
    its own [try]/[except], so that the script goes on after an error. *)
Fixpoint run (self : _InternalGlobals) (script : list (attribute * object))
  : _InternalGlobals :=
  match script with
  | [] => self
  | (name, value) :: script' => run (snd (setattr self name value)) script'
  end.

(** The states of an instance: the one [__init__] builds, and those after
    one more assignment through any name but the private attribute behind
    the property.  An assignment that raises is a step too. *)
Inductive reachable : _InternalGlobals -> Prop :=
| reachable_init : reachable __init__
| reachable_setattr self name value :
    reachable self ->
    name <> attr__export_onnx_opset_version ->
    reachable (snd (setattr self name value)).

(** The stored version selector is on the allow-list. *)
Definition version_supported (self : _InternalGlobals) : Prop :=
  contains supported_versions (_export_onnx_opset_version self) = true.

End Constants.

(** The three attributes that no property guards. *)
Definition unguarded (name : attribute) : bool :=
  match name with
  | attr_operator_export_type
  | attr_training_mode
  | attr_onnx_shape_inference => true
  | _ => false
  end.

Definition attribute_eq_dec (a b : attribute) : {a = b} + {a <> b}.
Proof. decide equality. Defined.

(** The script has an assignment to [name]. *)
Definition assigns (name : attribute) (script : list (attribute * object))
  : bool :=
  existsb (fun st => if attribute_eq_dec (fst st) name then true else false)
    script.

(** Values for the three constants, to run the definitions on. *)
Definition sample_main_opset : Z := 16.
Definition sample_stable_opsets : list Z := [7; 8; 9; 10; 11; 12; 13; 14; 15].
Definition sample_default_opset : Z := 13.

(** A script with an accepted and a refused version and an assignment to
    an unguarded attribute. *)
Definition sample_script : list (attribute * object) :=
  [(attr_export_onnx_opset_version, PyInt 16);
   (attr_export_onnx_opset_version, PyInt 9999);
   (attr_training_mode, PyEnum "TrainingMode" "EVAL")].



(** The value of the last assignment to [name] in the script, [before]
    when there is none. *)
Fixpoint last_write (name : attribute) (script : list (attribute * object))
    (before : object) : object :=
  match script with
  | [] => before
  | (other, value) :: script' =>
      last_write name script'
        (if attribute_eq_dec other name then value else before)
  end.

(** The value of the last assignment of the script that reaches the
    stored version: one through the property with a value on the
    allow-list, or one to the private attribute. *)
Fixpoint last_version (main : Z) (stable : list Z)
    (script : list (attribute * object)) (before : object) : object :=
  match script with
  | [] => before
  | (attr_export_onnx_opset_version, value) :: script' =>
      last_version main stable script'
        (if contains (supported_versions main stable) value
         then value else before)
  | (attr__export_onnx_opset_version, value) :: script' =>
      last_version main stable script' value
  | _ :: script' => last_version main stable script' before
  end.

(** Every assignment of the script goes through the property with a value
    off the allow-list. *)
Definition all_refused (main : Z) (stable : list Z)
    (script : list (attribute * object)) : bool :=
  forallb
    (fun st =>
       match fst st with
       | attr_export_onnx_opset_version =>
           negb (contains (supported_versions main stable) (snd st))
       | _ => false
       end)
    script.

(** The two names stand for one stored value: the property and the
    private attribute behind it. *)
Definition same_slot (a b : attribute) : bool :=
  match a, b with
  | attr_export_onnx_opset_version, attr__export_onnx_opset_version
  | attr__export_onnx_opset_version, attr_export_onnx_opset_version => true
  | _, _ => if attribute_eq_dec a b then true else false
  end.

End Globals.

(** ** The FSDP constructor, as test/distributed/fsdp/test_fsdp_misc.py
    observes it

    The parameter-sharding wrapper is not part of the sources at hand: the
    test module calls its constructor and looks at where the parameters
    are afterwards, and at the errors it raises. *)
Module FSDP.

(** Modelled from the spec: [torch.device], which the framework defines:
    host memory, or the accelerator with the given index. *)
Inductive device : Type :=
| cpu
| cuda (index : nat).

(** Modelled from the spec: the explicit device specifier that the
    constructor accepts as [device_id]: a bare index, or a device handle of
    the accelerator, whose index may be left out
    ([torch.device("cuda")]). *)
Inductive device_id : Type :=
| by_index (index : nat)
| by_device (index : option nat).

(** Modelled from the spec: [nn.Module], which the framework defines: the
    devices of the parameters the module owns, and its submodules. *)
#[warnings="-register-all"]
Inductive nn_Module : Type :=
| Mod (own : list device) (children : list nn_Module).

(** Modelled from the spec: the worker process the test runs in, with its
    rank in the process group and [torch.cuda.current_device()]. *)
Record process : Type := {
  rank : nat;
  current_device : nat
}.

(** Modelled from the spec: the framework-raised errors the tests expect:
    the runtime errors (single-device modules only; module on a device
    other than the requested one) and the assertion on an inconsistent
    device inference. *)
Inductive error : Type :=
| RuntimeError_single_device_modules
| RuntimeError_device_mismatch (on_rank : nat) (requested found : device)
| AssertionError_inconsistent (compute_device requested : device).

(** Modelled from the spec: the warnings the tests expect. *)
Inductive warning : Type :=
| no_explicit_index
| module_input_on_cpu.

(** Modelled from the spec: the wrapper the constructor returns: the
    wrapped module, the device the sharding computation runs on, and the
    warnings issued on the way. *)
Record wrapper : Type := {
  module : nn_Module;
  compute_device : device;
  warnings : list warning
}.

Inductive result : Type :=
| Ok (w : wrapper)
| Error (e : error).

Definition device_eq_dec (a b : device) : {a = b} + {a <> b}.
Proof. decide equality. apply Nat.eq_dec. Defined.

Definition device_eqb (a b : device) : bool :=
  if device_eq_dec a b then true else false.

(** Modelled from the spec: [module.parameters()], the framework's
    traversal: the module's own parameters, then those of its submodules
    in order.  A parameter is seen through its device. *)
Fixpoint parameters (m : nn_Module) : list device :=
  match m with
  | Mod own children => own ++ flat_map parameters children
  end.

(** Modelled from the spec: [module.to(d)] and [module.cuda()], the
    framework's move of every parameter of the module to one device. *)
Fixpoint to (d : device) (m : nn_Module) : nn_Module :=
  match m with
  | Mod own children => Mod (map (fun _ => d) own) (map (to d) children)
  end.

(** [{p.device for p in module.parameters()}], as the tests build it. *)
Definition devices (m : nn_Module) : list device :=
  nodup device_eq_dec (parameters m).

(** Modelled from the spec: the device an explicit specifier names.  A
    handle without an index names the current device of the process and
    draws the warning that it has no explicit index. *)
Definition resolve (p : process) (id : device_id) : device * list warning :=
  match id with
  | by_index i => (cuda i, [])
  | by_device (Some i) => (cuda i, [])
  | by_device None => (cuda (current_device p), [no_explicit_index])
  end.

(** Modelled from the spec: the device inferred from the module by
    inspecting its parameters; there is none as long as the module has no
    parameters to inspect. *)
Definition module_device (m : nn_Module) : option device :=
  match parameters m with
  | [] => None
  | d :: _ => Some d
  end.

(** Modelled from the spec: the constructor
    [FullyShardedDataParallel(module, device_id=...)], which is missing
    from the sources; its tests are the source at hand.
    - A module with parameters on more than one device type or index is
      refused.
    - With an explicit specifier, a module on host memory is moved to the
      device it names; a module already on an accelerator must be on that
      very device, or the error names both devices.
    - Without a specifier nothing is moved: a module on host memory stays
      there; sharding runs on the current accelerator and a warning says
      so.
    - A module without parameters is never moved; the compute device is
      then the current device of the process, and a specifier that names
      another device trips the consistency assertion. *)
Definition FSDP (p : process) (m : nn_Module) (id : option device_id)
  : result :=
  if (1 <? List.length (devices m))%nat then
    Error RuntimeError_single_device_modules
  else
    match id with
    | Some id =>
        let (requested, ws) := resolve p id in
        match module_device m with
        | None =>
            let compute := cuda (current_device p) in
            if device_eqb compute requested then
              Ok {| module := m; compute_device := compute; warnings := ws |}
            else
              Error (AssertionError_inconsistent compute requested)
        | Some cpu =>
            Ok {| module := to requested m;
                  compute_device := requested;
                  warnings := ws |}
        | Some found =>
            if device_eqb found requested then
              Ok {| module := m; compute_device := found; warnings := ws |}
            else
              Error (RuntimeError_device_mismatch (rank p) requested found)
        end
    | None =>
        match module_device m with
        | Some cpu =>
            Ok {| module := m;
                  compute_device := cuda (current_device p);
                  warnings := [module_input_on_cpu] |}
        | Some found =>
            Ok {| module := m; compute_device := found; warnings := [] |}
        | None =>
            Ok {| module := m;
                  compute_device := cuda (current_device p);
                  warnings := [] |}
        end
    end.

(** The modules of the tests: [nn.Linear(1, 1)] with its weight and bias
    on one device, [nn.ReLU()], and [MyModule] of
    [test_multi_device_not_supported]. *)
Definition Linear (d : device) : nn_Module := Mod [d; d] [].

Definition ReLU : nn_Module := Mod [] [].

Definition MyModule (p : process) : nn_Module :=
  Mod [] [Linear (cuda (current_device p)); Linear cpu].

(** A module with nested submodules, every parameter on [d]. *)
Definition nested (d : device) : nn_Module :=
  Mod [] [Linear d; Mod [d] [Linear d; Linear d]; Linear d].

(** The worker of rank 1 in the test's process group of two, on its own
    accelerator. *)
Definition rank1 : process := {| rank := 1; current_device := 1 |}.

(** The specifier, when there is one, names the current device of the
    process. *)
Definition names_current_device (p : process) (id : option device_id)
  : bool :=
  match id with
  | None => true
  | Some id => device_eqb (cuda (current_device p)) (fst (resolve p id))
  end.

(** How a test helper ends: every assertion held, or the first one that
    did not. *)
Inductive check : Type :=
| passed
| failed_single_device
| failed_device.

(** [_check_device_matches(fsdp, dev_id)], the helper that
    [test_fsdp_device_id] defines, with the [use_index] of the test it
    closes over.  [dev_id] is an index or a device handle, as
    [device_id] has them. *)
Definition _check_device_matches (use_index : bool) (fsdp : nn_Module)
    (dev_id : device_id) : check :=
  let devices := devices fsdp in
  if negb (1 =? List.length devices)%nat then failed_single_device
  else
    match devices with
    | found_dev :: _ =>
        let dev_id :=
          match dev_id with
          | by_index i => if use_index then by_device (Some i) else dev_id
          | by_device _ => dev_id
          end in
        match dev_id with
        | by_device (Some i) =>
            if device_eqb found_dev (cuda i) then passed else failed_device
        | _ => failed_device
        end
    | [] => failed_single_device
    end.

(** The [dev_id] that [test_fsdp_device_id] builds from [use_index]. *)
Definition test_dev_id (p : process) (use_index : bool) : device_id :=
  if use_index then by_index (current_device p)
  else by_device (Some (current_device p)).

End FSDP.

(** * Properties *)

(** ** Python membership *)
Module PyFacts.

Import Py.
Local Open Scope Z_scope.

Lemma equal_refl (x : object) : equal x x = true.
Proof.
  destruct x as [ | b | n | s | c m]; simpl.
  - reflexivity.
  - apply Bool.eqb_reflx.
  - apply Z.eqb_refl.
  - apply String.eqb_refl.
  - now rewrite !String.eqb_refl.
Qed.

Lemma contains_In (l : list object) (x : object) :
  In x l -> contains l x = true.
Proof.
  induction l as [ | e l IH]; simpl; intros H.
  - contradiction.
  - destruct H as [-> | H].
    + now rewrite equal_refl.
    + rewrite (IH H). apply orb_true_r.
Qed.

Lemma contains_PyInt (l : list Z) (n : Z) :
  contains (map PyInt l) (PyInt n) = true <-> In n l.
Proof.
  induction l as [ | m l IH]; simpl.
  - split; [discriminate | tauto].
  - rewrite orb_true_iff, IH, Z.eqb_eq.
    split; intros [H | H]; auto.
Qed.

End PyFacts.

(** ** The configuration holder *)
Module GlobalsFacts.

Import Py Globals.
Local Open Scope Z_scope.

Section Constants.

Variable onnx_main_opset : Z.
Variable onnx_stable_opsets : list Z.
Variable onnx_default_opset : Z.

Local Abbreviation supported := (supported_versions onnx_main_opset onnx_stable_opsets).
Local Abbreviation set_version :=
  (set_export_onnx_opset_version onnx_main_opset onnx_stable_opsets).
Local Abbreviation assign := (setattr onnx_main_opset onnx_stable_opsets).
Local Abbreviation exec := (run onnx_main_opset onnx_stable_opsets).
Local Abbreviation init := (__init__ onnx_default_opset).

(** The allow-list holds the main opset and the stable opsets, and an
    integer is on it exactly when it is one of them. *)
Lemma supported_PyInt (n : Z) :
  contains supported (PyInt n) = true <->
  In n (onnx_main_opset :: onnx_stable_opsets).
Proof.
  change supported with (map PyInt (onnx_main_opset :: onnx_stable_opsets)).
  apply PyFacts.contains_PyInt.
Qed.

Lemma set_version_accepted (self : _InternalGlobals) (value : object) :
  contains supported value = true ->
  set_version self value =
    (Done,
     {| _export_onnx_opset_version := value;
        operator_export_type := operator_export_type self;
        training_mode := training_mode self;
        onnx_shape_inference := onnx_shape_inference self |}).
Proof.
  intros H. unfold set_export_onnx_opset_version. now rewrite H.
Qed.

Lemma set_version_rejected (self : _InternalGlobals) (value : object) :
  contains supported value = false ->
  set_version self value =
    (Raise (ValueError ("Unsupported ONNX opset version: " ++ str value)%string),
     self).
Proof.
  intros H. unfold set_export_onnx_opset_version. now rewrite H.
Qed.

(** An assignment that does not raise through the property stores the
    value; one that raises stores nothing. *)
Lemma set_version_cases (self : _InternalGlobals) (value : object) :
  (contains supported value = true /\
   fst (set_version self value) = Done /\
   _export_onnx_opset_version (snd (set_version self value)) = value) \/
  (contains supported value = false /\
   snd (set_version self value) = self).
Proof.
  destruct (contains supported value) eqn:H.
  - left. rewrite (set_version_accepted self value H). auto.
  - right. rewrite (set_version_rejected self value H). auto.
Qed.

(** Assigning one name leaves what every other name reads, the property
    and the attribute behind it apart. *)
Lemma setattr_other (self : _InternalGlobals) (name other : attribute)
    (value : object) :
  unguarded name = true ->
  other <> name ->
  getattr (snd (assign self other value)) name = getattr self name.
Proof.
  intros Hname Hother.
  destruct name; try discriminate Hname;
    destruct other; try congruence; simpl; try reflexivity;
    unfold set_export_onnx_opset_version;
    destruct (negb (contains supported value)); reflexivity.
Qed.

Lemma run_other (name : attribute) (script : list (attribute * object)) :
  unguarded name = true ->
  assigns name script = false ->
  forall self, getattr (exec self script) name = getattr self name.
Proof.
  intros Hname. induction script as [ | [other value] script IH];
    simpl; intros Hscript self.
  - reflexivity.
  - apply orb_false_iff in Hscript. destruct Hscript as [Hhd Htl].
    rewrite (IH Htl). apply setattr_other; [assumption | ].
    simpl in Hhd. now destruct (attribute_eq_dec other name).
Qed.

(** Every assignment but one to the private attribute keeps the stored
    version on the allow-list. *)
Lemma setattr_version_supported (self : _InternalGlobals) (name : attribute)
    (value : object) :
  version_supported onnx_main_opset onnx_stable_opsets self ->
  name <> attr__export_onnx_opset_version ->
  version_supported onnx_main_opset onnx_stable_opsets
    (snd (assign self name value)).
Proof.
  unfold version_supported. intros Hself Hname.
  destruct name; try congruence; simpl; try assumption.
  destruct (set_version_cases self value) as [(H & _ & ->) | (_ & ->)];
    assumption.
Qed.

Lemma run_reachable (script : list (attribute * object)) :
  assigns attr__export_onnx_opset_version script = false ->
  forall self,
    reachable onnx_main_opset onnx_stable_opsets onnx_default_opset self ->
    reachable onnx_main_opset onnx_stable_opsets onnx_default_opset
      (exec self script).
Proof.
  induction script as [ | [name value] script IH]; simpl; intros Hscript self Hself.
  - assumption.
  - apply orb_false_iff in Hscript. destruct Hscript as [Hhd Htl].
    apply (IH Htl). apply reachable_setattr; [assumption | ].
    simpl in Hhd.
    now destruct (attribute_eq_dec name attr__export_onnx_opset_version).
Qed.

(** C1.  Assigning a value of the supported set (the main opset version
    together with the stable ones) to [export_onnx_opset_version] raises
    nothing, and the property then reads as that very value. *)
Theorem set_supported_version_reads_back (self : _InternalGlobals)
    (v : object) :
  contains supported v = true ->
  fst (assign self attr_export_onnx_opset_version v) = Done /\
  getattr (snd (assign self attr_export_onnx_opset_version v))
    attr_export_onnx_opset_version = v.
Proof.
  intros Hv. simpl. rewrite (set_version_accepted self v Hv). split; reflexivity.
Qed.

(** C2.  Assigning a value outside the supported set to
    [export_onnx_opset_version] raises [ValueError], and the stored version
    is afterwards what it was before. *)
Theorem set_unsupported_version_raises (self : _InternalGlobals)
    (v : object) :
  contains supported v = false ->
  fst (assign self attr_export_onnx_opset_version v) =
    Raise (ValueError ("Unsupported ONNX opset version: " ++ str v)%string) /\
  _export_onnx_opset_version
    (snd (assign self attr_export_onnx_opset_version v)) =
    _export_onnx_opset_version self.
Proof.
  intros Hv. simpl. rewrite (set_version_rejected self v Hv). split; reflexivity.
Qed.

(** C3.  In every reachable state of [_InternalGlobals] (after [__init__]
    and after any sequence of assignments in which the version is assigned
    through the property), the stored version selector is on the
    allow-list of supported versions.  That [__init__] starts there is
    what the absent constants module owes: its default opset is one of its
    supported versions. *)
Theorem reachable_version_supported (self : _InternalGlobals) :
  In onnx_default_opset (onnx_main_opset :: onnx_stable_opsets) ->
  reachable onnx_main_opset onnx_stable_opsets onnx_default_opset self ->
  version_supported onnx_main_opset onnx_stable_opsets self.
Proof.
  intros Hdefault Hself.
  induction Hself as [ | self name value _ IH Hname].
  - unfold version_supported. simpl _export_onnx_opset_version.
    now apply supported_PyInt.
  - now apply setattr_version_supported.
Qed.

(** C4.  Assigning any value at all to [operator_export_type],
    [training_mode] or [onnx_shape_inference] raises nothing, and the
    attribute reads as the value last written to it, also after any
    assignments to other names. *)
Theorem unguarded_attribute_reads_back (self : _InternalGlobals)
    (name : attribute) (v : object) (script : list (attribute * object)) :
  unguarded name = true ->
  assigns name script = false ->
  fst (assign self name v) = Done /\
  getattr (snd (assign self name v)) name = v /\
  getattr (exec (snd (assign self name v)) script) name = v.
Proof.
  intros Hname Hscript.
  assert (Hnow : fst (assign self name v) = Done /\
                 getattr (snd (assign self name v)) name = v)
    by (destruct name; try discriminate Hname; split; reflexivity).
  destruct Hnow as [Hdone Hread].
  repeat split; try assumption.
  now rewrite (run_other name script Hname Hscript).
Qed.

(** C10.  An assignment to [export_onnx_opset_version], whether it stores
    the value or raises, leaves [operator_export_type], [training_mode]
    and [onnx_shape_inference] as they were; an assignment to one of
    these three leaves the stored version selector as it was. *)
Theorem version_and_unguarded_attributes_are_independent
    (self : _InternalGlobals) (v : object) :
  (operator_export_type (snd (assign self attr_export_onnx_opset_version v)) =
     operator_export_type self /\
   training_mode (snd (assign self attr_export_onnx_opset_version v)) =
     training_mode self /\
   onnx_shape_inference (snd (assign self attr_export_onnx_opset_version v)) =
     onnx_shape_inference self) /\
  (_export_onnx_opset_version (snd (assign self attr_operator_export_type v)) =
     _export_onnx_opset_version self /\
   _export_onnx_opset_version (snd (assign self attr_training_mode v)) =
     _export_onnx_opset_version self /\
   _export_onnx_opset_version (snd (assign self attr_onnx_shape_inference v)) =
     _export_onnx_opset_version self).
Proof.
  split.
  - simpl. unfold set_export_onnx_opset_version.
    destruct (negb (contains supported v)); simpl; auto.
  - simpl. auto.
Qed.

End Constants.

(** *** The definitions at work *)

Abbreviation sample_init := (__init__ sample_default_opset).
Abbreviation sample_setattr :=
  (setattr sample_main_opset sample_stable_opsets).
Abbreviation sample_run := (run sample_main_opset sample_stable_opsets).

Example set_stable_version :
  sample_setattr sample_init attr_export_onnx_opset_version (PyInt 9) =
    (Done,
     {| _export_onnx_opset_version := PyInt 9;
        operator_export_type := PyNone;
        training_mode := PyNone;
        onnx_shape_inference := PyBool false |}).
Proof. reflexivity. Qed.

Example set_version_9999 :
  sample_setattr sample_init attr_export_onnx_opset_version (PyInt 9999) =
    (Raise (ValueError "Unsupported ONNX opset version: 9999"), sample_init).
Proof. reflexivity. Qed.

Example set_version_string :
  fst (sample_setattr sample_init attr_export_onnx_opset_version
         (PyStr "13")) =
    Raise (ValueError "Unsupported ONNX opset version: 13").
Proof. reflexivity. Qed.

(** The private attribute is not guarded: a direct assignment to it leaves
    the allow-list. *)
Example private_assignment_unchecked :
  sample_setattr sample_init attr__export_onnx_opset_version (PyInt 9999) =
    (Done,
     {| _export_onnx_opset_version := PyInt 9999;
        operator_export_type := PyNone;
        training_mode := PyNone;
        onnx_shape_inference := PyBool false |}).
Proof. reflexivity. Qed.

Lemma set_supported_version_reads_back_witness :
  contains (supported_versions sample_main_opset sample_stable_opsets)
    (PyInt 9) = true /\
  (fst (sample_setattr sample_init attr_export_onnx_opset_version (PyInt 9)) =
     Done /\
   getattr
     (snd (sample_setattr sample_init attr_export_onnx_opset_version
             (PyInt 9)))
     attr_export_onnx_opset_version = PyInt 9).
Proof.
  split.
  - reflexivity.
  - apply (set_supported_version_reads_back sample_main_opset
             sample_stable_opsets sample_init (PyInt 9)).
    reflexivity.
Defined.

Lemma set_unsupported_version_raises_witness :
  contains (supported_versions sample_main_opset sample_stable_opsets)
    (PyInt 9999) = false /\
  (fst (sample_setattr sample_init attr_export_onnx_opset_version
          (PyInt 9999)) =
     Raise (ValueError "Unsupported ONNX opset version: 9999") /\
   _export_onnx_opset_version
     (snd (sample_setattr sample_init attr_export_onnx_opset_version
             (PyInt 9999))) =
     PyInt 13).
Proof.
  split.
  - reflexivity.
  - apply (set_unsupported_version_raises sample_main_opset
             sample_stable_opsets sample_init (PyInt 9999)).
    reflexivity.
Defined.

Lemma reachable_version_supported_witness :
  In sample_default_opset (sample_main_opset :: sample_stable_opsets) /\
  reachable sample_main_opset sample_stable_opsets sample_default_opset
    (sample_run sample_init sample_script) /\
  version_supported sample_main_opset sample_stable_opsets
    (sample_run sample_init sample_script).
Proof.
  assert (Hdefault :
            In sample_default_opset
              (sample_main_opset :: sample_stable_opsets))
    by (simpl; tauto).
  assert (Hreach :
            reachable sample_main_opset sample_stable_opsets
              sample_default_opset (sample_run sample_init sample_script))
    by (apply run_reachable; [reflexivity | apply reachable_init]).
  split; [exact Hdefault | split; [exact Hreach | ]].
  exact (reachable_version_supported sample_main_opset sample_stable_opsets
           sample_default_opset _ Hdefault Hreach).
Defined.

Lemma unguarded_attribute_reads_back_witness :
  unguarded attr_training_mode = true /\
  assigns attr_training_mode
    [(attr_export_onnx_opset_version, PyInt 9999);
     (attr_onnx_shape_inference, PyStr "yes")] = false /\
  (fst (sample_setattr sample_init attr_training_mode (PyInt 42)) = Done /\
   getattr (snd (sample_setattr sample_init attr_training_mode (PyInt 42)))
     attr_training_mode = PyInt 42 /\
   getattr
     (sample_run
        (snd (sample_setattr sample_init attr_training_mode (PyInt 42)))
        [(attr_export_onnx_opset_version, PyInt 9999);
         (attr_onnx_shape_inference, PyStr "yes")])
     attr_training_mode = PyInt 42).
Proof.
  repeat (split; [reflexivity | ]).
  apply (unguarded_attribute_reads_back sample_main_opset
           sample_stable_opsets sample_init attr_training_mode (PyInt 42));
    reflexivity.
Defined.

End GlobalsFacts.

(** ** Device placement by the FSDP constructor *)
Module FSDPFacts.

Import FSDP.

(** Induction on a module with its submodules at hand. *)
Lemma nn_Module_induction (P : nn_Module -> Prop) :
  (forall own children, Forall P children -> P (Mod own children)) ->
  forall m, P m.
Proof.
  intros step. fix IH 1. intros [own children]. apply step.
  induction children as [ | c children IHchildren]; constructor.
  - apply IH.
  - exact IHchildren.
Qed.

Lemma parameters_to (d : device) (m : nn_Module) :
  parameters (to d m) = map (fun _ => d) (parameters m).
Proof.
  induction m as [own children IH] using nn_Module_induction.
  simpl. rewrite map_app. f_equal.
  induction IH as [ | c children Hc _ IHchildren]; simpl.
  - reflexivity.
  - now rewrite map_app, Hc, IHchildren.
Qed.

Lemma to_places_parameters (d : device) (m : nn_Module) :
  Forall (fun d' => d' = d) (parameters (to d m)).
Proof.
  rewrite parameters_to. apply Forall_forall. intros d' Hd'.
  apply in_map_iff in Hd'. now destruct Hd' as (_ & <- & _).
Qed.

Lemma device_eqb_eq (a b : device) : device_eqb a b = true <-> a = b.
Proof.
  unfold device_eqb. destruct (device_eq_dec a b); split; congruence.
Qed.

Lemma device_eqb_neq (a b : device) : device_eqb a b = false <-> a <> b.
Proof.
  unfold device_eqb. destruct (device_eq_dec a b); split; congruence.
Qed.

(** A module with at most one device in [devices] has all its parameters
    on one device, and the other way round. *)
Lemma single_device_agree (m : nn_Module) (d1 d2 : device) :
  (List.length (devices m) <= 1)%nat ->
  In d1 (parameters m) -> In d2 (parameters m) -> d1 = d2.
Proof.
  unfold devices. intros Hlen H1 H2.
  apply (nodup_In device_eq_dec) in H1, H2.
  destruct (nodup device_eq_dec (parameters m)) as [ | d [ | d' l]].
  - contradiction.
  - destruct H1 as [<- | []], H2 as [<- | []]. reflexivity.
  - simpl in Hlen. lia.
Qed.

Lemma all_on_single_device (m : nn_Module) (d : device) :
  Forall (fun d' => d' = d) (parameters m) ->
  (List.length (devices m) <= 1)%nat.
Proof.
  unfold devices. intros Hall.
  assert (Hnodup := NoDup_nodup device_eq_dec (parameters m)).
  assert (Hsub : forall x, In x (nodup device_eq_dec (parameters m)) -> x = d).
  { intros x Hx. apply nodup_In in Hx.
    rewrite Forall_forall in Hall. now apply Hall. }
  destruct (nodup device_eq_dec (parameters m)) as [ | a [ | b l]];
    simpl; try lia.
  exfalso. inversion Hnodup as [ | ? ? Hnotin _]; subst.
  apply Hnotin. left.
  rewrite (Hsub a), (Hsub b); simpl; auto.
Qed.

Lemma module_device_head (m : nn_Module) (d : device) :
  module_device m = Some d -> In d (parameters m).
Proof.
  unfold module_device. destruct (parameters m); [discriminate | ].
  intros [= ->]. now left.
Qed.

Lemma module_device_None (m : nn_Module) :
  module_device m = None <-> parameters m = [].
Proof.
  unfold module_device. destruct (parameters m); split; congruence.
Qed.

Lemma single_device_all (m : nn_Module) (d : device) :
  (List.length (devices m) <= 1)%nat ->
  module_device m = Some d ->
  Forall (fun d' => d' = d) (parameters m).
Proof.
  intros Hlen Hd. apply Forall_forall. intros d' Hd'.
  apply (single_device_agree m d' d Hlen Hd').
  now apply module_device_head.
Qed.

(** The constructor gets past its first check exactly on single-device
    modules. *)
Lemma FSDP_multi_device (p : process) (m : nn_Module)
    (id : option device_id) :
  (1 < List.length (devices m))%nat ->
  FSDP p m id = Error RuntimeError_single_device_modules.
Proof.
  intros Hlen. unfold FSDP.
  now replace (1 <? List.length (devices m))%nat with true
    by (symmetry; now apply Nat.ltb_lt).
Qed.

Lemma FSDP_Ok_single_device (p : process) (m : nn_Module)
    (id : option device_id) (w : wrapper) :
  FSDP p m id = Ok w -> (List.length (devices m) <= 1)%nat.
Proof.
  unfold FSDP. destruct (1 <? List.length (devices m))%nat eqn:Hlen.
  - discriminate.
  - intros _. apply Nat.ltb_ge in Hlen. exact Hlen.
Qed.

(** C5.  When the constructor wraps a module with an explicit device
    specifier, a bare index or a device handle, every parameter of the
    wrapped module is afterwards on one device, the one the specifier
    names. *)
Theorem explicit_device_id_places_parameters (p : process) (m : nn_Module)
    (id : device_id) (w : wrapper) :
  FSDP p m (Some id) = Ok w ->
  Forall (fun d => d = fst (resolve p id)) (parameters (module w)).
Proof.
  intros Hw. assert (Hlen := FSDP_Ok_single_device p m (Some id) w Hw).
  revert Hw. unfold FSDP.
  replace (1 <? List.length (devices m))%nat with false
    by (symmetry; now apply Nat.ltb_ge).
  destruct (resolve p id) as [requested ws]. simpl fst.
  destruct (module_device m) as [[ | k] | ] eqn:Hdev.
  - intros [= <-]. simpl module. apply to_places_parameters.
  - destruct (device_eqb (cuda k) requested) eqn:Heq; [ | discriminate].
    intros [= <-]. simpl module. apply device_eqb_eq in Heq. subst requested.
    now apply single_device_all.
  - destruct (device_eqb (cuda (current_device p)) requested);
      [ | discriminate].
    intros [= <-]. simpl module.
    apply module_device_None in Hdev. rewrite Hdev. constructor.
Qed.

(** C6.  When the parameters of the module are on an accelerator device
    other than the one the explicit specifier names, the constructor
    raises the runtime error that names the rank, the requested device and
    the device found, and that error is what the caller gets. *)
Theorem module_on_other_device_is_refused (p : process) (m : nn_Module)
    (id : device_id) (k : nat) :
  parameters m <> [] ->
  Forall (fun d => d = cuda k) (parameters m) ->
  fst (resolve p id) <> cuda k ->
  FSDP p m (Some id) =
    Error (RuntimeError_device_mismatch (rank p) (fst (resolve p id)) (cuda k)).
Proof.
  intros Hparams Hall Hother.
  assert (Hlen := all_on_single_device m (cuda k) Hall).
  assert (Hdev : module_device m = Some (cuda k)).
  { unfold module_device. destruct (parameters m) as [ | d l];
      [congruence | ].
    inversion Hall; subst. reflexivity. }
  unfold FSDP.
  replace (1 <? List.length (devices m))%nat with false
    by (symmetry; now apply Nat.ltb_ge).
  destruct (resolve p id) as [requested ws]. simpl fst in *.
  rewrite Hdev.
  replace (device_eqb (cuda k) requested) with false
    by (symmetry; apply device_eqb_neq; congruence).
  reflexivity.
Qed.

(** C7.  When the parameters of the module are on more than one device, by
    type or by index, the constructor raises the runtime error that only
    single-device modules are supported, with or without a device
    specifier. *)
Theorem multi_device_module_is_refused (p : process) (m : nn_Module)
    (id : option device_id) (d1 d2 : device) :
  In d1 (parameters m) ->
  In d2 (parameters m) ->
  d1 <> d2 ->
  FSDP p m id = Error RuntimeError_single_device_modules.
Proof.
  intros H1 H2 Hneq. apply FSDP_multi_device.
  destruct (Nat.lt_ge_cases 1 (List.length (devices m))) as [Hlt | Hge];
    [exact Hlt | ].
  exfalso. apply Hneq. now apply (single_device_agree m d1 d2).
Qed.

(** C8, as the tests have it.  A module without parameters is wrapped, and
    left where it is, when no device specifier is given or when the
    specifier names the current device of the process; no device is
    inferred from the module, which has no parameter to inspect, and the
    compute device is the current one. *)
Theorem no_parameters_is_wrapped_unmoved (p : process) (m : nn_Module)
    (id : option device_id) :
  parameters m = [] ->
  names_current_device p id = true ->
  exists ws,
    FSDP p m id =
      Ok {| module := m;
            compute_device := cuda (current_device p);
            warnings := ws |} /\
    module_device m = None.
Proof.
  intros Hparams Hid.
  assert (Hdev : module_device m = None) by now apply module_device_None.
  unfold FSDP, devices. rewrite Hdev, Hparams. simpl.
  destruct id as [id | ].
  - simpl in Hid. destruct (resolve p id) as [requested ws]. simpl in Hid.
    rewrite Hid. now exists ws.
  - now exists [].
Qed.

(** A specifier that names another device than the current one is refused
    for a module without parameters. *)
Lemma no_parameters_inconsistent_device_id (p : process) (m : nn_Module)
    (id : device_id) :
  parameters m = [] ->
  names_current_device p (Some id) = false ->
  FSDP p m (Some id) =
    Error (AssertionError_inconsistent (cuda (current_device p))
             (fst (resolve p id))).
Proof.
  intros Hparams Hid.
  assert (Hdev : module_device m = None) by now apply module_device_None.
  unfold FSDP, devices. rewrite Hdev, Hparams. simpl.
  simpl in Hid. destruct (resolve p id) as [requested ws]. simpl in Hid.
  now rewrite Hid.
Qed.

(** The placement half of [test_fsdp_cpu_init_stays_on_cpu]: a module on
    host memory, wrapped without a specifier, is still on host memory; the
    sharding runs on the current accelerator; [.cuda()] then moves every
    parameter there. *)
Lemma cpu_init_stays_on_cpu (p : process) (m : nn_Module) :
  parameters m <> [] ->
  Forall (fun d => d = cpu) (parameters m) ->
  FSDP p m None =
    Ok {| module := m;
          compute_device := cuda (current_device p);
          warnings := [module_input_on_cpu] |} /\
  Forall (fun d => d = cuda (current_device p))
    (parameters (to (cuda (current_device p)) m)).
Proof.
  intros Hparams Hall. split; [ | apply to_places_parameters].
  assert (Hlen := all_on_single_device m cpu Hall).
  unfold FSDP.
  replace (1 <? List.length (devices m))%nat with false
    by (symmetry; now apply Nat.ltb_ge).
  unfold module_device. destruct (parameters m) as [ | d l]; [congruence | ].
  inversion Hall; subst. reflexivity.
Qed.

(** *** The tests, run on the definitions *)

(** [test_fsdp_device_id]: a module on host memory goes to the requested
    device; a module already there stays; a handle without index names
    the current device and is warned about. *)
Example test_fsdp_device_id_by_index :
  FSDP rank1 (nested cpu) (Some (by_index 1)) =
    Ok {| module := nested (cuda 1);
          compute_device := cuda 1;
          warnings := [] |}.
Proof. reflexivity. Qed.

Example test_fsdp_device_id_by_device :
  FSDP rank1 (nested (cuda 1)) (Some (by_device (Some 1))) =
    Ok {| module := nested (cuda 1);
          compute_device := cuda 1;
          warnings := [] |}.
Proof. reflexivity. Qed.

Example test_fsdp_device_id_no_index :
  FSDP rank1 (nested (cuda 1)) (Some (by_device None)) =
    Ok {| module := nested (cuda 1);
          compute_device := cuda 1;
          warnings := [no_explicit_index] |}.
Proof. reflexivity. Qed.

Example test_module_device_mismatches_device_id :
  FSDP rank1 (nested (cuda 1)) (Some (by_index 0)) =
    Error (RuntimeError_device_mismatch 1 (cuda 0) (cuda 1)).
Proof. reflexivity. Qed.

Example test_multi_device_not_supported :
  FSDP rank1 (MyModule rank1) None = Error RuntimeError_single_device_modules.
Proof. reflexivity. Qed.

Example test_no_params_cpu_init :
  FSDP rank1 ReLU None =
    Ok {| module := ReLU; compute_device := cuda 1; warnings := [] |}.
Proof. reflexivity. Qed.

Example test_no_params_current_device :
  FSDP rank1 ReLU (Some (by_index 1)) =
    Ok {| module := ReLU; compute_device := cuda 1; warnings := [] |}.
Proof. reflexivity. Qed.

Example test_no_params_wrong_device_id :
  FSDP rank1 ReLU (Some (by_index 0)) =
    Error (AssertionError_inconsistent (cuda 1) (cuda 0)).
Proof. reflexivity. Qed.

Example test_fsdp_cpu_init_stays_on_cpu :
  FSDP rank1 (nested cpu) None =
    Ok {| module := nested cpu;
          compute_device := cuda 1;
          warnings := [module_input_on_cpu] |}.
Proof. reflexivity. Qed.

Lemma explicit_device_id_places_parameters_witness :
  FSDP rank1 (nested cpu) (Some (by_index 1)) =
    Ok {| module := nested (cuda 1);
          compute_device := cuda 1;
          warnings := [] |} /\
  Forall (fun d => d = cuda 1) (parameters (nested (cuda 1))).
Proof.
  split.
  - reflexivity.
  - apply (explicit_device_id_places_parameters rank1 (nested cpu)
             (by_index 1)
             {| module := nested (cuda 1);
                compute_device := cuda 1;
                warnings := [] |}).
    reflexivity.
Defined.

Lemma module_on_other_device_is_refused_witness :
  parameters (nested (cuda 1)) <> [] /\
  Forall (fun d => d = cuda 1) (parameters (nested (cuda 1))) /\
  fst (resolve rank1 (by_index 0)) <> cuda 1 /\
  FSDP rank1 (nested (cuda 1)) (Some (by_index 0)) =
    Error (RuntimeError_device_mismatch 1 (cuda 0) (cuda 1)).
Proof.
  assert (H1 : parameters (nested (cuda 1)) <> []) by (simpl; discriminate).
  assert (H2 : Forall (fun d => d = cuda 1) (parameters (nested (cuda 1))))
    by (simpl; repeat constructor).
  assert (H3 : fst (resolve rank1 (by_index 0)) <> cuda 1)
    by (simpl; discriminate).
  repeat (split; [assumption | ]).
  exact (module_on_other_device_is_refused rank1 (nested (cuda 1))
           (by_index 0) 1 H1 H2 H3).
Defined.

Lemma multi_device_module_is_refused_witness :
  In (cuda 1) (parameters (MyModule rank1)) /\
  In cpu (parameters (MyModule rank1)) /\
  cuda 1 <> cpu /\
  FSDP rank1 (MyModule rank1) None = Error RuntimeError_single_device_modules.
Proof.
  assert (H1 : In (cuda 1) (parameters (MyModule rank1))) by (simpl; tauto).
  assert (H2 : In cpu (parameters (MyModule rank1))) by (simpl; tauto).
  assert (H3 : cuda 1 <> cpu) by discriminate.
  repeat (split; [assumption | ]).
  exact (multi_device_module_is_refused rank1 (MyModule rank1) None
           (cuda 1) cpu H1 H2 H3).
Defined.

(** C8, as the claim words it, fails: the worker of rank 1, on device 1,
    wraps the parameterless [nn.ReLU()] with [device_id=0] and gets the
    assertion error that the test expects. *)
Lemma no_parameters_not_always_wrapped :
  ~ (forall (p : process) (m : nn_Module) (id : option device_id),
        parameters m = [] ->
        exists w, FSDP p m id = Ok w /\ module w = m).
Proof.
  intros H.
  destruct (H rank1 ReLU (Some (by_index 0)) eq_refl) as (w & Hw & _).
  discriminate Hw.
Qed.

Lemma no_parameters_is_wrapped_unmoved_witness :
  parameters ReLU = [] /\
  names_current_device rank1 (Some (by_device None)) = true /\
  exists ws,
    FSDP rank1 ReLU (Some (by_device None)) =
      Ok {| module := ReLU; compute_device := cuda 1; warnings := ws |} /\
    module_device ReLU = None.
Proof.
  repeat (split; [reflexivity | ]).
  apply (no_parameters_is_wrapped_unmoved rank1 ReLU
           (Some (by_device None)));
    reflexivity.
Defined.

End FSDPFacts.

(** ** More on the configuration holder *)
Module GlobalsMore.

Import Py Globals.
Local Open Scope Z_scope.




Section Constants.

Variable onnx_main_opset : Z.
Variable onnx_stable_opsets : list Z.
Variable onnx_default_opset : Z.

Local Abbreviation supported :=
  (supported_versions onnx_main_opset onnx_stable_opsets).
Local Abbreviation assign := (setattr onnx_main_opset onnx_stable_opsets).
Local Abbreviation exec := (run onnx_main_opset onnx_stable_opsets).




(** X3.  In every reachable state the stored version is the default opset
    that [__init__] wrote or a value that the setter accepted; no
    assumption on the constants is needed for that. *)
Theorem reachable_version_default_or_supported (self : _InternalGlobals) :
  reachable onnx_main_opset onnx_stable_opsets onnx_default_opset self ->
  _export_onnx_opset_version self = PyInt onnx_default_opset \/
  contains supported (_export_onnx_opset_version self) = true.
Proof.
  intros Hself. induction Hself as [ | self name value _ IH Hname].
  - now left.
  - destruct name; try congruence; simpl; try exact IH.
    destruct (GlobalsFacts.set_version_cases onnx_main_opset
                onnx_stable_opsets self value)
      as [(Hc & _ & ->) | (_ & ->)]; [now right | exact IH].
Qed.


(** X5.  Of two assignments through the property the later one wins when
    its value is supported: the object is then what the later assignment
    alone would have made it, whatever the earlier value was. *)
Theorem later_supported_version_overrides (self : _InternalGlobals)
    (v1 v2 : object) :
  contains supported v2 = true ->
  snd (assign (snd (assign self attr_export_onnx_opset_version v1))
         attr_export_onnx_opset_version v2) =
  snd (assign self attr_export_onnx_opset_version v2).
Proof.
  intros H2. simpl.
  rewrite !(GlobalsFacts.set_version_accepted _ _ _ v2 H2). simpl.
  unfold set_export_onnx_opset_version.
  destruct (negb (contains supported v1)); reflexivity.
Qed.

(** X6.  A script in which every assignment goes through the property
    with an unsupported value leaves the object exactly as it was. *)
Theorem refused_assignments_change_nothing
    (script : list (attribute * object)) (self : _InternalGlobals) :
  all_refused onnx_main_opset onnx_stable_opsets script = true ->
  exec self script = self.
Proof.
  induction script as [ | [name value] script IH]; simpl; intros Hscript.
  - reflexivity.
  - apply andb_true_iff in Hscript. destruct Hscript as [Hhd Htl].
    destruct name; try discriminate Hhd. simpl in Hhd.
    apply negb_true_iff in Hhd. simpl.
    rewrite (GlobalsFacts.set_version_rejected _ _ self value Hhd).
    now apply IH.
Qed.

(** X7.  Assignments to two names that do not stand for the same stored
    value commute: the object after both is the same in either order,
    and whether the second raises does not depend on the first having
    run. *)
Theorem assignments_commute (self : _InternalGlobals) (a b : attribute)
    (va vb : object) :
  same_slot a b = false ->
  snd (assign (snd (assign self a va)) b vb) =
    snd (assign (snd (assign self b vb)) a va) /\
  fst (assign (snd (assign self a va)) b vb) = fst (assign self b vb).
Proof.
  intros Hab.
  destruct a, b; try discriminate Hab; simpl;
    unfold set_export_onnx_opset_version;
    try destruct (negb (contains supported va));
    try destruct (negb (contains supported vb));
    split; reflexivity.
Qed.

(** X8.  Assigning the same value to the same name twice is the same as
    assigning it once, for every name and value, accepted or not. *)
Theorem assignment_idempotent (self : _InternalGlobals) (a : attribute)
    (v : object) :
  assign (snd (assign self a v)) a v =
    (fst (assign self a v), snd (assign self a v)).
Proof.
  destruct a; simpl; try reflexivity.
  unfold set_export_onnx_opset_version.
  destruct (negb (contains supported v)); reflexivity.
Qed.

(** X9.  After any script an unguarded attribute reads as the value of
    the last assignment to it in the script, and as before the script
    when the script has none. *)
Theorem unguarded_attribute_last_write (name : attribute)
    (script : list (attribute * object)) (self : _InternalGlobals) :
  unguarded name = true ->
  getattr (exec self script) name =
    last_write name script (getattr self name).
Proof.
  intros Hname. revert self.
  induction script as [ | [other value] script IH]; simpl; intros self.
  - reflexivity.
  - rewrite IH. f_equal.
    destruct (attribute_eq_dec other name) as [-> | Hother].
    + destruct name; try discriminate Hname; reflexivity.
    + now apply GlobalsFacts.setattr_other.
Qed.

(** X10.  After any script the property reads as the value of the last
    assignment that reached the stored version, one through the property
    with a supported value or one to the private attribute; refused
    assignments and assignments to the other attributes do not count. *)
Theorem version_last_accepted (script : list (attribute * object))
    (self : _InternalGlobals) :
  getattr (exec self script) attr_export_onnx_opset_version =
    last_version onnx_main_opset onnx_stable_opsets script
      (getattr self attr_export_onnx_opset_version).
Proof.
  revert self.
  induction script as [ | [name value] script IH]; intros self.
  - reflexivity.
  - destruct name; cbn [run last_version]; rewrite IH; try reflexivity.
    cbn [setattr getattr]. unfold export_onnx_opset_version.
    destruct (contains supported value) eqn:Hc.
    + now rewrite (GlobalsFacts.set_version_accepted _ _ self value Hc).
    + now rewrite (GlobalsFacts.set_version_rejected _ _ self value Hc).
Qed.


End Constants.

(** *** The theorems at the sample constants *)

Abbreviation init := (__init__ sample_default_opset).
Abbreviation supported :=
  (supported_versions sample_main_opset sample_stable_opsets).
Abbreviation assign := (setattr sample_main_opset sample_stable_opsets).
Abbreviation exec := (run sample_main_opset sample_stable_opsets).



Lemma sample_script_reachable :
  reachable sample_main_opset sample_stable_opsets sample_default_opset
    (exec init sample_script).
Proof.
  apply GlobalsFacts.run_reachable; [reflexivity | apply reachable_init].
Qed.

Lemma reachable_version_default_or_supported_witness :
  reachable sample_main_opset sample_stable_opsets sample_default_opset
    (exec init sample_script) /\
  (_export_onnx_opset_version (exec init sample_script) =
     PyInt sample_default_opset \/
   contains supported (_export_onnx_opset_version (exec init sample_script)) =
     true).
Proof.
  split.
  - exact sample_script_reachable.
  - exact (reachable_version_default_or_supported sample_main_opset
             sample_stable_opsets sample_default_opset _
             sample_script_reachable).
Defined.


Lemma later_supported_version_overrides_witness :
  contains supported (PyInt 9) = true /\
  snd (assign (snd (assign init attr_export_onnx_opset_version (PyInt 16)))
         attr_export_onnx_opset_version (PyInt 9)) =
  snd (assign init attr_export_onnx_opset_version (PyInt 9)).
Proof.
  split.
  - reflexivity.
  - apply (later_supported_version_overrides sample_main_opset
             sample_stable_opsets init (PyInt 16) (PyInt 9)).
    reflexivity.
Defined.

Lemma refused_assignments_change_nothing_witness :
  all_refused sample_main_opset sample_stable_opsets
    [(attr_export_onnx_opset_version, PyInt 9999);
     (attr_export_onnx_opset_version, PyNone);
     (attr_export_onnx_opset_version, PyInt 6)] = true /\
  exec init
    [(attr_export_onnx_opset_version, PyInt 9999);
     (attr_export_onnx_opset_version, PyNone);
     (attr_export_onnx_opset_version, PyInt 6)] = init.
Proof.
  split.
  - reflexivity.
  - apply (refused_assignments_change_nothing sample_main_opset
             sample_stable_opsets).
    reflexivity.
Defined.

Lemma assignments_commute_witness :
  same_slot attr_export_onnx_opset_version attr_training_mode = false /\
  (snd (assign (snd (assign init attr_export_onnx_opset_version (PyInt 9)))
          attr_training_mode (PyEnum "TrainingMode" "TRAIN")) =
     snd (assign
            (snd (assign init attr_training_mode
                    (PyEnum "TrainingMode" "TRAIN")))
            attr_export_onnx_opset_version (PyInt 9)) /\
   fst (assign (snd (assign init attr_export_onnx_opset_version (PyInt 9)))
          attr_training_mode (PyEnum "TrainingMode" "TRAIN")) =
     fst (assign init attr_training_mode (PyEnum "TrainingMode" "TRAIN"))).
Proof.
  split.
  - reflexivity.
  - apply (assignments_commute sample_main_opset sample_stable_opsets init
             attr_export_onnx_opset_version attr_training_mode).
    reflexivity.
Defined.

Lemma unguarded_attribute_last_write_witness :
  unguarded attr_training_mode = true /\
  getattr (exec init sample_script) attr_training_mode =
    last_write attr_training_mode sample_script
      (getattr init attr_training_mode).
Proof.
  split.
  - reflexivity.
  - apply (unguarded_attribute_last_write sample_main_opset
             sample_stable_opsets attr_training_mode sample_script init).
    reflexivity.
Defined.


End GlobalsMore.

(** ** More on the FSDP tests *)
Module FSDPMore.

Import FSDP.

Lemma on_one_device (m : nn_Module) (d : device) :
  parameters m <> [] ->
  Forall (fun d' => d' = d) (parameters m) ->
  module_device m = Some d /\
  (1 <? List.length (devices m))%nat = false.
Proof.
  intros Hparams Hall. split.
  - unfold module_device. destruct (parameters m) as [ | d' l];
      [congruence | ].
    inversion Hall; subst. reflexivity.
  - apply Nat.ltb_ge. now apply (FSDPFacts.all_on_single_device m d).
Qed.

(** The set of devices of a module is one device exactly when the module
    has a parameter and all its parameters are on that device. *)
Lemma devices_single (m : nn_Module) (d : device) :
  devices m = [d] <->
  parameters m <> [] /\ Forall (fun d' => d' = d) (parameters m).
Proof.
  split.
  - intros Hd.
    assert (Hin : forall x, In x (parameters m) -> x = d).
    { intros x Hx. apply (nodup_In device_eq_dec) in Hx.
      fold (devices m) in Hx. rewrite Hd in Hx.
      now destruct Hx as [<- | []]. }
    split.
    + intros Hnil. unfold devices in Hd. rewrite Hnil in Hd. discriminate.
    + now apply Forall_forall.
  - intros [Hparams Hall].
    assert (Hlen := FSDPFacts.all_on_single_device m d Hall).
    assert (Hin : forall x, In x (devices m) -> x = d).
    { intros x Hx. apply nodup_In in Hx.
      rewrite Forall_forall in Hall. now apply Hall. }
    assert (Hne : devices m <> []).
    { intros Hnil. destruct (parameters m) as [ | x l] eqn:Hps;
        [congruence | ].
      assert (Hx : In x (devices m))
        by (apply nodup_In; rewrite Hps; now left).
      rewrite Hnil in Hx. contradiction. }
    destruct (devices m) as [ | a [ | b l]]; simpl in Hlen.
    + congruence.
    + f_equal. apply Hin. now left.
    + lia.
Qed.

Lemma check_passes_on_device (use_index : bool) (m : nn_Module)
    (dev_id : device_id) (i : nat) :
  dev_id = by_device (Some i) \/ (use_index = true /\ dev_id = by_index i) ->
  parameters m <> [] ->
  Forall (fun d => d = cuda i) (parameters m) ->
  _check_device_matches use_index m dev_id = passed.
Proof.
  intros Hid Hparams Hall. unfold _check_device_matches.
  rewrite (proj2 (devices_single m (cuda i)) (conj Hparams Hall)). simpl.
  assert (Heq : device_eqb (cuda i) (cuda i) = true)
    by now apply FSDPFacts.device_eqb_eq.
  destruct Hid as [-> | [-> ->]]; now rewrite Heq.
Qed.


(** X13.  On the model of the constructor: a module with its parameters
    on host memory, wrapped with an explicit specifier, is wrapped without
    error and every parameter is moved to the device the specifier names,
    which is also the compute device. *)
Theorem cpu_module_is_moved_to_device_id (p : process) (m : nn_Module)
    (id : device_id) :
  parameters m <> [] ->
  Forall (fun d => d = cpu) (parameters m) ->
  FSDP p m (Some id) =
    Ok {| module := to (fst (resolve p id)) m;
          compute_device := fst (resolve p id);
          warnings := snd (resolve p id) |} /\
  parameters (to (fst (resolve p id)) m) =
    map (fun _ => fst (resolve p id)) (parameters m).
Proof.
  intros Hparams Hall.
  destruct (on_one_device m cpu Hparams Hall) as [Hdev Hlen].
  split; [ | apply FSDPFacts.parameters_to].
  unfold FSDP. rewrite Hlen, Hdev.
  now destruct (resolve p id) as [requested ws].
Qed.

(** X14.  On the model of the constructor: a module whose parameters are
    already on the accelerator device that the specifier names is wrapped
    without error and is not moved. *)
Theorem module_on_device_id_is_kept (p : process) (m : nn_Module)
    (id : device_id) (k : nat) :
  parameters m <> [] ->
  Forall (fun d => d = cuda k) (parameters m) ->
  fst (resolve p id) = cuda k ->
  FSDP p m (Some id) =
    Ok {| module := m;
          compute_device := cuda k;
          warnings := snd (resolve p id) |}.
Proof.
  intros Hparams Hall Hid.
  destruct (on_one_device m (cuda k) Hparams Hall) as [Hdev Hlen].
  unfold FSDP. rewrite Hlen, Hdev.
  destruct (resolve p id) as [requested ws]. simpl in *. subst requested.
  now replace (device_eqb (cuda k) (cuda k)) with true
    by (symmetry; now apply FSDPFacts.device_eqb_eq).
Qed.

(** The parameters of a wrapped module, when the module was on host
    memory or on the named device. *)
Lemma wrapped_on_device_id (p : process) (m : nn_Module) (id : device_id) :
  parameters m <> [] ->
  Forall (fun d => d = cpu) (parameters m) \/
  Forall (fun d => d = fst (resolve p id)) (parameters m) ->
  exists w,
    FSDP p m (Some id) = Ok w /\
    warnings w = snd (resolve p id) /\
    parameters (module w) <> [] /\
    Forall (fun d => d = fst (resolve p id)) (parameters (module w)).
Proof.
  intros Hparams [Hcpu | Hdev].
  - destruct (on_one_device m cpu Hparams Hcpu) as [Hm Hlen].
    unfold FSDP. rewrite Hlen, Hm.
    destruct (resolve p id) as [requested ws]. simpl.
    eexists. split; [reflexivity | ]. simpl. split; [reflexivity | ].
    split; [ | apply FSDPFacts.to_places_parameters].
    rewrite FSDPFacts.parameters_to.
    destruct (parameters m); [congruence | discriminate].
  - destruct (on_one_device m _ Hparams Hdev) as [Hm Hlen].
    unfold FSDP. rewrite Hlen, Hm.
    destruct (resolve p id) as [requested ws]. simpl in *.
    assert (Heq : device_eqb requested requested = true)
      by now apply FSDPFacts.device_eqb_eq.
    destruct requested as [ | k].
    + eexists. split; [reflexivity | ]. simpl. split; [reflexivity | ].
      split; [ | apply FSDPFacts.to_places_parameters].
      rewrite FSDPFacts.parameters_to.
      destruct (parameters m); [congruence | discriminate].
    + rewrite Heq. eexists. split; [reflexivity | ]. simpl. auto.
Qed.

(** X15.  The first two steps of [test_fsdp_device_id], on the model of
    the constructor, for either value of [use_index]: a module with
    parameters, on host memory or already on the current device, is
    wrapped with the test's [dev_id], and [_check_device_matches] then
    passes. *)
Theorem test_fsdp_device_id_passes (p : process) (use_index : bool)
    (m : nn_Module) :
  parameters m <> [] ->
  Forall (fun d => d = cpu) (parameters m) \/
  Forall (fun d => d = cuda (current_device p)) (parameters m) ->
  exists w,
    FSDP p m (Some (test_dev_id p use_index)) = Ok w /\
    _check_device_matches use_index (module w) (test_dev_id p use_index) =
      passed.
Proof.
  intros Hparams Hm.
  assert (Hres : fst (resolve p (test_dev_id p use_index)) =
                 cuda (current_device p))
    by (destruct use_index; reflexivity).
  destruct (wrapped_on_device_id p m (test_dev_id p use_index) Hparams)
    as (w & Hw & _ & Hne & Hall); [now rewrite Hres | ].
  rewrite Hres in Hall.
  exists w. split; [exact Hw | ].
  apply (check_passes_on_device use_index (module w) _ (current_device p));
    try assumption.
  destruct use_index; [right | left]; auto.
Qed.

(** X16.  The last step of [test_fsdp_device_id], on the model of the
    constructor: with the handle [torch.device("cuda")], which has no
    index, the module is wrapped with the warning on the missing index,
    and its parameters are on the current device:
    [_check_device_matches] passes against the handle with the index of
    the current device. *)
Theorem device_id_without_index_names_current_device (p : process)
    (use_index : bool) (m : nn_Module) :
  parameters m <> [] ->
  Forall (fun d => d = cpu) (parameters m) \/
  Forall (fun d => d = cuda (current_device p)) (parameters m) ->
  exists w,
    FSDP p m (Some (by_device None)) = Ok w /\
    warnings w = [no_explicit_index] /\
    _check_device_matches use_index (module w)
      (by_device (Some (current_device p))) = passed.
Proof.
  intros Hparams Hm.
  destruct (wrapped_on_device_id p m (by_device None) Hparams Hm)
    as (w & Hw & Hws & Hne & Hall).
  exists w. split; [exact Hw | ]. split; [exact Hws | ].
  apply (check_passes_on_device use_index (module w) _ (current_device p));
    try assumption.
  now left.
Qed.

(** X17.  [test_module_device_mismatches_device_id], on the model of the
    constructor: a worker whose current device is its rank puts the
    module on that device and asks for [device_id=0]; on rank 0 the
    module is wrapped, on every other rank the runtime error names the
    rank, [cuda:0] and the device of the module. *)
Theorem device_id_0_mismatch_by_rank (p : process) (m : nn_Module) :
  current_device p = rank p ->
  parameters m <> [] ->
  Forall (fun d => d = cuda (current_device p)) (parameters m) ->
  FSDP p m (Some (by_index 0)) =
    if (rank p =? 0)%nat then
      Ok {| module := m; compute_device := cuda 0; warnings := [] |}
    else
      Error (RuntimeError_device_mismatch (rank p) (cuda 0)
               (cuda (rank p))).
Proof.
  intros Hrank Hparams Hall. rewrite Hrank in Hall.
  destruct (on_one_device m (cuda (rank p)) Hparams Hall) as [Hdev Hlen].
  unfold FSDP. rewrite Hlen, Hdev. simpl.
  destruct (Nat.eqb_spec (rank p) 0) as [H0 | H0].
  - rewrite H0.
    now replace (device_eqb (cuda 0) (cuda 0)) with true
      by (symmetry; now apply FSDPFacts.device_eqb_eq).
  - now replace (device_eqb (cuda (rank p)) (cuda 0)) with false
      by (symmetry; apply FSDPFacts.device_eqb_neq; congruence).
Qed.

(** X18.  The last step of [test_no_params], on the model of the
    constructor: a module without parameters asked onto [device_id=0] is
    wrapped, unmoved, by the worker whose current device is 0; on any
    other worker the assertion fails on the current device against
    [cuda:0]. *)
Theorem no_params_device_id_0_by_rank (p : process) (m : nn_Module) :
  parameters m = [] ->
  FSDP p m (Some (by_index 0)) =
    if (current_device p =? 0)%nat then
      Ok {| module := m; compute_device := cuda 0; warnings := [] |}
    else
      Error (AssertionError_inconsistent (cuda (current_device p)) (cuda 0)).
Proof.
  intros Hparams.
  assert (Hdev : module_device m = None)
    by now apply FSDPFacts.module_device_None.
  unfold FSDP, devices. rewrite Hdev, Hparams. simpl.
  destruct (Nat.eqb_spec (current_device p) 0) as [H0 | H0].
  - rewrite H0.
    now replace (device_eqb (cuda 0) (cuda 0)) with true
      by (symmetry; now apply FSDPFacts.device_eqb_eq).
  - now replace (device_eqb (cuda (current_device p)) (cuda 0)) with false
      by (symmetry; apply FSDPFacts.device_eqb_neq; congruence).
Qed.

(** X19.  The device assertions of [test_fsdp_cpu_init_stays_on_cpu], on
    the model of the constructor: a module on host memory wrapped without
    a specifier draws the warning that it is input on CPU, its set of
    devices is afterwards the host alone, and after [.cuda()] it is the
    current accelerator device alone. *)
Theorem cpu_init_devices (p : process) (m : nn_Module) :
  parameters m <> [] ->
  Forall (fun d => d = cpu) (parameters m) ->
  exists w,
    FSDP p m None = Ok w /\
    warnings w = [module_input_on_cpu] /\
    devices (module w) = [cpu] /\
    devices (to (cuda (current_device p)) (module w)) =
      [cuda (current_device p)].
Proof.
  intros Hparams Hall.
  destruct (on_one_device m cpu Hparams Hall) as [Hdev Hlen].
  eexists. split.
  - unfold FSDP. rewrite Hlen, Hdev. reflexivity.
  - simpl. split; [reflexivity | ]. split.
    + now apply devices_single.
    + apply devices_single. split.
      * rewrite FSDPFacts.parameters_to.
        destruct (parameters m); [congruence | discriminate].
      * apply FSDPFacts.to_places_parameters.
Qed.

(** *** The theorems on the modules of the tests *)

Lemma nested_parameters (d : device) :
  parameters (nested d) <> [] /\
  Forall (fun d' => d' = d) (parameters (nested d)).
Proof.
  split; [discriminate | simpl; repeat constructor].
Qed.


Lemma cpu_module_is_moved_to_device_id_witness :
  parameters (nested cpu) <> [] /\
  Forall (fun d => d = cpu) (parameters (nested cpu)) /\
  FSDP rank1 (nested cpu) (Some (by_device (Some 1))) =
    Ok {| module := nested (cuda 1);
          compute_device := cuda 1;
          warnings := [] |} /\
  parameters (nested (cuda 1)) =
    map (fun _ => cuda 1) (parameters (nested cpu)).
Proof.
  destruct (nested_parameters cpu) as [H1 H2].
  split; [exact H1 | split; [exact H2 | ]].
  exact (cpu_module_is_moved_to_device_id rank1 (nested cpu)
           (by_device (Some 1)) H1 H2).
Defined.

Lemma module_on_device_id_is_kept_witness :
  parameters (nested (cuda 1)) <> [] /\
  Forall (fun d => d = cuda 1) (parameters (nested (cuda 1))) /\
  fst (resolve rank1 (by_index 1)) = cuda 1 /\
  FSDP rank1 (nested (cuda 1)) (Some (by_index 1)) =
    Ok {| module := nested (cuda 1);
          compute_device := cuda 1;
          warnings := [] |}.
Proof.
  destruct (nested_parameters (cuda 1)) as [H1 H2].
  split; [exact H1 | split; [exact H2 | split; [reflexivity | ]]].
  exact (module_on_device_id_is_kept rank1 (nested (cuda 1)) (by_index 1) 1
           H1 H2 eq_refl).
Defined.

Lemma test_fsdp_device_id_passes_witness :
  parameters (nested cpu) <> [] /\
  (Forall (fun d => d = cpu) (parameters (nested cpu)) \/
   Forall (fun d => d = cuda 1) (parameters (nested cpu))) /\
  exists w,
    FSDP rank1 (nested cpu) (Some (by_index 1)) = Ok w /\
    _check_device_matches true (module w) (by_index 1) = passed.
Proof.
  destruct (nested_parameters cpu) as [H1 H2].
  split; [exact H1 | split; [left; exact H2 | ]].
  exact (test_fsdp_device_id_passes rank1 true (nested cpu) H1
           (or_introl H2)).
Defined.

Lemma device_id_without_index_names_current_device_witness :
  parameters (nested (cuda 1)) <> [] /\
  (Forall (fun d => d = cpu) (parameters (nested (cuda 1))) \/
   Forall (fun d => d = cuda 1) (parameters (nested (cuda 1)))) /\
  exists w,
    FSDP rank1 (nested (cuda 1)) (Some (by_device None)) = Ok w /\
    warnings w = [no_explicit_index] /\
    _check_device_matches false (module w) (by_device (Some 1)) = passed.
Proof.
  destruct (nested_parameters (cuda 1)) as [H1 H2].
  split; [exact H1 | split; [right; exact H2 | ]].
  exact (device_id_without_index_names_current_device rank1 false
           (nested (cuda 1)) H1 (or_intror H2)).
Defined.

Lemma device_id_0_mismatch_by_rank_witness :
  current_device rank1 = rank rank1 /\
  parameters (nested (cuda 1)) <> [] /\
  Forall (fun d => d = cuda 1) (parameters (nested (cuda 1))) /\
  FSDP rank1 (nested (cuda 1)) (Some (by_index 0)) =
    Error (RuntimeError_device_mismatch 1 (cuda 0) (cuda 1)).
Proof.
  destruct (nested_parameters (cuda 1)) as [H1 H2].
  split; [reflexivity | split; [exact H1 | split; [exact H2 | ]]].
  exact (device_id_0_mismatch_by_rank rank1 (nested (cuda 1)) eq_refl H1 H2).
Defined.

Lemma no_params_device_id_0_by_rank_witness :
  parameters ReLU = [] /\
  FSDP rank1 ReLU (Some (by_index 0)) =
    Error (AssertionError_inconsistent (cuda 1) (cuda 0)).
Proof.
  split.
  - reflexivity.
  - exact (no_params_device_id_0_by_rank rank1 ReLU eq_refl).
Defined.

Lemma cpu_init_devices_witness :
  parameters (nested cpu) <> [] /\
  Forall (fun d => d = cpu) (parameters (nested cpu)) /\
  exists w,
    FSDP rank1 (nested cpu) None = Ok w /\
    warnings w = [module_input_on_cpu] /\
    devices (module w) = [cpu] /\
    devices (to (cuda 1) (module w)) = [cuda 1].
Proof.
  destruct (nested_parameters cpu) as [H1 H2].
  split; [exact H1 | split; [exact H2 | ]].
  exact (cpu_init_devices rank1 (nested cpu) H1 H2).
Defined.

End FSDPMore.
